(** * ImageBlock: the accumulation buffer and its Python binding

    The development follows [src/librender/python/imageblock_v.cpp], the
    per-variant binding of [mitsuba::ImageBlock].  The binding is embedded
    function by function; the members of [ImageBlock] it calls are declared
    in [mitsuba/render/imageblock.h], which the binding only includes, and
    are collected in the interface [ImageBlockAPI].  One implementation of
    that interface is given further down, following the design document. *)

From Stdlib Require Import PrimFloat FloatOps SpecFloat ZArith Lia String.
From stdpp Require Import base option list.

Local Open Scope string_scope.

(** ** Variants

    [imageblock_v.cpp] is compiled once per variant; the variant fixes the
    type [Float].  In scalar variants it is a C++ arithmetic type, in the
    JIT variants an Enoki array: [ek::LLVMArray] (vectorised CPU code) or
    [ek::CUDAArray] (GPU).  Wrapping an array in [ek::DiffArray] keeps both
    traits below, so the differentiable variants need no case of their own. *)
Inductive FloatType : Set :=
  | ScalarFloat
  | LLVMArray
  | CUDAArray.

(** [std::is_scalar_v<Float>] *)
Definition is_scalar_v (F : FloatType) : bool :=
  match F with ScalarFloat => true | _ => false end.

(** [ek::is_llvm_array_v<Float>] *)
Definition is_llvm_array_v (F : FloatType) : bool :=
  match F with LLVMArray => true | _ => false end.

(** The two kinds of execution backend the design document speaks of: a
    sequential one that handles one sample per call, and the wide ones that
    handle many lanes per call. *)
Definition sequential_backend (F : FloatType) : Prop := F = ScalarFloat.
Definition wide_parallel_backend (F : FloatType) : Prop := F <> ScalarFloat.

(** ** Values

    Operations are modelled on one lane: a [Float] is an IEEE-754 binary
    number, a [Mask] one boolean. *)
Abbreviation Float := float.
Abbreviation Mask := bool.

Record Point2f : Set := mkPoint2f { p_x : Float; p_y : Float }.

(** [ScalarPoint2u] and [ScalarVector2u]: pairs of [uint32_t].  The binding
    does no arithmetic on them, so they are carried as naturals. *)
Record Point2u : Set := mkPoint2u { u_x : nat; u_y : nat }.
Definition Vector2u : Set := Point2u.

(** ** Exceptions *)
Inductive result (A : Type) : Type :=
  | Ok (a : A)
  | Throw (what : string).
Arguments Ok {A} a.
Arguments Throw {A} what.

(** ** Constructor arguments

    The five trailing [bool] parameters shared by both constructors, under
    the names the binding gives them. *)
Record CtorFlags : Set := mkFlags {
  border : bool;
  normalize : bool;
  coalesce : bool;
  warn_negative : bool;
  warn_invalid : bool
}.

(** ** The members of [ImageBlock] used by the binding *)
Class ImageBlockAPI := {
  ImageBlock : Type;
  ReconstructionFilter : Type;
  TensorXf : Type;
  Wavelength : Type;
  Spectrum : Type;
  (** [ImageBlock(offset, size, channel_count, rfilter, border, normalize,
      coalesce, warn_negative, warn_invalid)] *)
  ImageBlock_new :
    Point2u -> Vector2u -> nat -> option ReconstructionFilter -> CtorFlags ->
    result ImageBlock;
  (** [ImageBlock(offset, tensor, rfilter, border, ...)] *)
  ImageBlock_from_tensor :
    Point2u -> TensorXf -> option ReconstructionFilter -> CtorFlags ->
    result ImageBlock;
  ImageBlock_channel_count : ImageBlock -> nat;
  ImageBlock_tensor : ImageBlock -> TensorXf;
  (** [put(pos, wavelengths, value, alpha, weight, active)] *)
  ImageBlock_put_spectral :
    ImageBlock -> Point2f -> Wavelength -> Spectrum -> Float -> Float -> Mask ->
    ImageBlock;
  (** [put(pos, const Float *values, active)] *)
  ImageBlock_put : ImageBlock -> Point2f -> list Float -> Mask -> ImageBlock;
  (** [read(pos, Float *values, active) const]: the value stored to
      [values[k]], if the call stores one. *)
  ImageBlock_read : ImageBlock -> Point2f -> Mask -> nat -> option Float;
  ImageBlock_clear : ImageBlock -> ImageBlock
}.

(** ** The binding *)
Module Py.
Section Binding.
Context {API : ImageBlockAPI}.
(** The variant this translation unit is compiled for. *)
Variable F : FloatType.

(** A keyword argument declared as ["name"_a = dflt]: [None] stands for a
    call that leaves it out. *)
Definition kwarg {A : Type} (dflt : A) (supplied : option A) : A :=
  default dflt supplied.

(** [nullptr] *)
Definition nullptr : option ReconstructionFilter := None.

(** First [py::init]: lines 8-15. *)
Definition init_rfilter (rfilter : option (option ReconstructionFilter))
  : option ReconstructionFilter :=
  kwarg nullptr rfilter.

Definition init_flags (border normalize coalesce warn_negative warn_invalid
                       : option bool) : CtorFlags :=
  mkFlags (kwarg (is_scalar_v F) border)
          (kwarg false normalize)
          (kwarg (is_llvm_array_v F) coalesce)
          (kwarg (is_scalar_v F) warn_negative)
          (kwarg (is_scalar_v F) warn_invalid).

Definition init (offset : Point2u) (size : Vector2u) (channels : nat)
    (rfilter : option (option ReconstructionFilter))
    (border normalize coalesce warn_negative warn_invalid : option bool)
  : result ImageBlock :=
  ImageBlock_new offset size channels (init_rfilter rfilter)
    (init_flags border normalize coalesce warn_negative warn_invalid).

(** Second [py::init]: lines 16-23. *)
Definition init_tensor_rfilter
    (rfilter : option (option ReconstructionFilter))
  : option ReconstructionFilter :=
  kwarg nullptr rfilter.

Definition init_tensor_flags
    (border normalize coalesce warn_negative warn_invalid : option bool)
  : CtorFlags :=
  mkFlags (kwarg (is_scalar_v F) border)
          (kwarg false normalize)
          (kwarg (is_llvm_array_v F) coalesce)
          (kwarg (is_scalar_v F) warn_negative)
          (kwarg (is_scalar_v F) warn_invalid).

Definition init_tensor (offset : Point2u) (t : TensorXf)
    (rfilter : option (option ReconstructionFilter))
    (border normalize coalesce warn_negative warn_invalid : option bool)
  : result ImageBlock :=
  ImageBlock_from_tensor offset t (init_tensor_rfilter rfilter)
    (init_tensor_flags border normalize coalesce warn_negative warn_invalid).

(** ["put"], spectral overload: lines 25-30.  The literals [1.f] and [1]
    both convert to the [Float] one. *)
Definition put_spectral (ib : ImageBlock) (pos : Point2f)
    (wavelengths : Wavelength) (value : Spectrum)
    (alpha weight : option Float) (active : option Mask) : ImageBlock :=
  ImageBlock_put_spectral ib pos wavelengths value
    (kwarg 1%float alpha) (kwarg 1%float weight) (kwarg true active).

(** ["put"], raw values: lines 31-37.  The block is passed by reference;
    the second component is the block after the call. *)
Definition put (ib : ImageBlock) (pos : Point2f) (values : list Float)
    (active : option Mask) : result unit * ImageBlock :=
  let active := kwarg true active in
  if bool_decide (length values <> ImageBlock_channel_count ib)
  then (Throw "Incompatible channel count!", ib)
  else (Ok tt, ImageBlock_put ib pos values active).

(** ["read"]: lines 38-43.  [std::vector<Float> values(n)] holds [n]
    zeros; [ImageBlock::read] stores through [values.data()]. *)
Definition read (ib : ImageBlock) (pos : Point2f) (active : option Mask)
  : list Float :=
  let active := kwarg true active in
  let values := replicate (ImageBlock_channel_count ib) 0%float in
  imap (fun k old => default old (ImageBlock_read ib pos active k)) values.

(** [clear]: line 44. *)
Definition clear (ib : ImageBlock) : ImageBlock := ImageBlock_clear ib.

End Binding.
End Py.

(** The flags a constructor receives when the caller names none of them. *)
Definition default_flags (F : FloatType) : CtorFlags :=
  Py.init_flags F None None None None None.
Definition default_tensor_flags (F : FloatType) : CtorFlags :=
  Py.init_tensor_flags F None None None None None.

(** ** The accumulation buffer

    [imageblock.h] and [imageblock.cpp] are outside the fragment; the
    definitions of this module follow the design document, section by
    section. *)
Module Core.
Local Open Scope Z_scope.

(** Modelled from the spec: the Filter Adapter of section 4.1, whose kernel
    is an opaque weighting function.  [rf_border_size] is the margin derived
    from the radius; [rf_footprint] maps a sample position to the pixel
    offsets of its footprint, relative to the nearest pixel, each with its
    weight. *)
Record Filter : Type := mkFilter {
  rf_border_size : nat;
  rf_footprint : Point2f -> list (Z * Z * Float)
}.

(** Modelled from the spec: the tensor handed out by [tensor()]; a shape
    and a dense row-major array (section 3). *)
Record Tensor : Set := mkTensor {
  shape : list nat;
  array : list Float
}.

(** Modelled from the spec: the Image Block of section 3.  [storage] is
    the array of the storage tensor, of shape
    [(height + 2 border) x (width + 2 border) x channel_count];
    [weight_sum] is the implicit per-pixel weight accumulator. *)
Record Block : Type := mkBlock {
  offset : Point2u;
  block_size : Vector2u;
  border_size : nat;
  channel_count : nat;
  rfilter : option Filter;
  flags : CtorFlags;
  storage : list Float;
  weight_sum : list Float
}.

Definition width (b : Block) : nat := u_x (block_size b).
Definition height (b : Block) : nat := u_y (block_size b).

(** Extent of the allocation, border included. *)
Definition cols (b : Block) : nat := (width b + 2 * border_size b)%nat.
Definition rows (b : Block) : nat := (height b + 2 * border_size b)%nat.

(** Modelled from the spec: [tensor()] exposes the backing array with its
    shape (section 4.2, [as_tensor]). *)
Definition tensor (b : Block) : Tensor :=
  mkTensor [rows b; cols b; channel_count b] (storage b).

(** Modelled from the spec: the margin is derived from the filter's radius
    unless the border flag is false; without a filter nothing is splatted
    beyond the nearest pixel, so no margin is needed (section 3). *)
Definition margin (rf : option Filter) (border : bool) : nat :=
  if border then from_option rf_border_size 0%nat rf else 0%nat.

(** Modelled from the spec: first constructor of section 4.3.  Storage is
    fresh and zeroed; non-positive dimensions are an allocation failure and
    a channel count below one a channel mismatch (sections 3 and 7). *)
Definition new (off : Point2u) (size : Vector2u) (channels : nat)
    (rf : option Filter) (fl : CtorFlags) : result Block :=
  if bool_decide (channels = 0%nat) then Throw "channel mismatch"
  else if bool_decide (u_x size = 0%nat \/ u_y size = 0%nat)
  then Throw "allocation failure"
  else
    let m := margin rf (border fl) in
    let pixels := ((u_y size + 2 * m) * (u_x size + 2 * m))%nat in
    Ok (mkBlock off size m channels rf fl
          (replicate (pixels * channels) 0%float)
          (replicate pixels 0%float)).

(** Modelled from the spec: second constructor of section 4.3.  The tensor
    is adopted as storage, the size is its shape minus the border and the
    channel count its last dimension. *)
Definition from_tensor (off : Point2u) (t : Tensor) (rf : option Filter)
    (fl : CtorFlags) : result Block :=
  let m := margin rf (border fl) in
  match shape t with
  | [h; w; channels] =>
      if bool_decide (channels = 0%nat) then Throw "channel mismatch"
      else if bool_decide (2 * m < h /\ 2 * m < w)%nat then
        if bool_decide (length (array t) = (h * w * channels)%nat) then
          Ok (mkBlock off (mkPoint2u (w - 2 * m) (h - 2 * m)) m channels rf fl
                (array t) (replicate (h * w) 0%float))
        else Throw "shape mismatch"
      else Throw "allocation failure"
  | _ => Throw "shape mismatch"
  end.

(** Largest integer not above a finite [Float]; [None] for NaN and the
    infinities. *)
Definition floor_float (x : Float) : option Z :=
  match Prim2SF x with
  | S754_zero _ => Some 0
  | S754_finite s m e => Some (Z.shiftl (if s then Z.neg m else Z.pos m) e)
  | S754_infinity _ | S754_nan => None
  end.

(** Modelled from the spec: [put] and [read] locate a position by
    subtracting the offset and adding the border size (section 4.3); the
    nearest pixel is the one whose unit square holds the position.  The
    result is (column, row) in storage coordinates, not yet checked against
    the extent. *)
Definition nearest_pixel (b : Block) (pos : Point2f) : option (Z * Z) :=
  x ← floor_float (p_x pos);
  y ← floor_float (p_y pos);
  Some (x - Z.of_nat (u_x (offset b)) + Z.of_nat (border_size b),
        y - Z.of_nat (u_y (offset b)) + Z.of_nat (border_size b)).

Definition in_extent (b : Block) (c r : Z) : bool :=
  bool_decide (0 <= c < Z.of_nat (cols b) /\ 0 <= r < Z.of_nat (rows b)).

(** Modelled from the spec: the footprint returned by the Filter Adapter;
    without a filter it is the nearest pixel alone, with weight 1
    (section 4.1). *)
Definition footprint (rf : option Filter) (pos : Point2f)
  : list (Z * Z * Float) :=
  match rf with
  | None => [(0, 0, 1%float)]
  | Some f => rf_footprint f pos
  end.

(** Row-major index of pixel [(row, col)] and of its first channel. *)
Definition pixel_index (b : Block) (row col : nat) : nat :=
  (row * cols b + col)%nat.

(** Channel vector stored for the pixel of index [p]. *)
Definition cell (b : Block) (p : nat) : list Float :=
  take (channel_count b) (drop (p * channel_count b) (storage b)).

(** Modelled from the spec: [accumulate] of section 4.2 adds
    [values[i] * weight] to channel [i] of the pixel and, when the block
    normalizes, [weight] to the pixel's weight accumulator. *)
Definition accumulate (b : Block) (row col : nat) (values : list Float)
    (weight : Float) : Block :=
  let n := channel_count b in
  let p := pixel_index b row col in
  let add j x :=
    if bool_decide (p * n <= j < p * n + n)%nat
    then from_option (fun v => (x + v * weight)%float) x (values !! (j - p * n)%nat)
    else x in
  mkBlock (offset b) (block_size b) (border_size b) n (rfilter b) (flags b)
    (imap add (storage b))
    (if normalize (flags b)
     then alter (fun s => (s + weight)%float) p (weight_sum b)
     else weight_sum b).

(** One footprint entry of a sample whose nearest pixel is [(c0, r0)]:
    accumulated when the pixel lies in the allocated extent, dropped
    otherwise. *)
Definition splat (b : Block) (values : list Float) (c0 r0 : Z) (acc : Block)
    (e : Z * Z * Float) : Block :=
  let '(dx, dy, w) := e in
  if in_extent b (c0 + dx) (r0 + dy)
  then accumulate acc (Z.to_nat (r0 + dy)) (Z.to_nat (c0 + dx)) values w
  else acc.

(** Modelled from the spec: [put(position, raw_channel_values, active)] of
    section 4.3.  Inactive samples are skipped; with [warn_invalid] a
    contribution holding NaN or Inf is dropped (sections 4.3 and 7); the
    advisories themselves are log output and are not modelled. *)
Definition put (b : Block) (pos : Point2f) (values : list Float)
    (active : Mask) : Block :=
  if negb active then b
  else if warn_invalid (flags b) && negb (forallb is_finite values) then b
  else match nearest_pixel b pos with
       | None => b
       | Some (c0, r0) =>
           foldl (splat b values c0 r0) b (footprint (rfilter b) pos)
       end.

(** Modelled from the spec: the division of a stored value by the weight
    accumulator, zero when the accumulator is zero (section 4.3, [read]). *)
Definition normalized (w v : Float) : Float :=
  if PrimFloat.eqb w 0 then 0%float else (v / w)%float.

(** Modelled from the spec: [read(position, active)] of section 4.3: a
    direct lookup of the nearest cell, normalized on request; an inactive
    read gives zeros.  A position that addresses no cell is read like a
    masked-out one. *)
Definition read (b : Block) (pos : Point2f) (active : Mask) : list Float :=
  let zero := replicate (channel_count b) 0%float in
  if negb active then zero
  else match nearest_pixel b pos with
       | None => zero
       | Some (c, r) =>
           if in_extent b c r then
             let p := pixel_index b (Z.to_nat r) (Z.to_nat c) in
             if normalize (flags b)
             then normalized (default 0%float (weight_sum b !! p)) <$> cell b p
             else cell b p
           else zero
       end.

(** Modelled from the spec: [clear()] zeroes the storage and keeps offset,
    size, filter and flags (section 4.3). *)
Definition clear (b : Block) : Block :=
  mkBlock (offset b) (block_size b) (border_size b) (channel_count b)
    (rfilter b) (flags b)
    (replicate (length (storage b)) 0%float)
    (replicate (length (weight_sum b)) 0%float).

(** A sample whose whole footprint misses the allocated extent. *)
Definition outside_extent (b : Block) (pos : Point2f) : Prop :=
  match nearest_pixel b pos with
  | None => True
  | Some (c0, r0) =>
      Forall (fun e : Z * Z * Float =>
                in_extent b (c0 + e.1.1) (r0 + e.1.2) = false)
             (footprint (rfilter b) pos)
  end.

(** Storage and weight accumulators have the size the shape announces. *)
Definition well_formed (b : Block) : Prop :=
  length (storage b) = (rows b * cols b * channel_count b)%nat /\
  length (weight_sum b) = (rows b * cols b)%nat.

Section Spectral.
(** The spectral-response step that turns a spectral sample into channel
    values is external to the block and left open. *)
Variables (Wavelength Spectrum : Type).
Variable spectrum_to_channels : Wavelength -> Spectrum -> list Float.

(** Modelled from the spec: the principal [put] of section 4.3 converts the
    spectral sample, appends [alpha] and [weight] as trailing channels and
    splats the resulting vector. *)
Definition put_spectral (b : Block) (pos : Point2f) (wavelengths : Wavelength)
    (value : Spectrum) (alpha weight : Float) (active : Mask) : Block :=
  put b pos (spectrum_to_channels wavelengths value ++ [alpha; weight]) active.

Definition api : ImageBlockAPI := {|
  ImageBlock := Block;
  ReconstructionFilter := Filter;
  TensorXf := Tensor;
  ImageBlock_new := new;
  ImageBlock_from_tensor := from_tensor;
  ImageBlock_channel_count := channel_count;
  ImageBlock_tensor := tensor;
  ImageBlock_put_spectral := put_spectral;
  ImageBlock_put := put;
  ImageBlock_read := fun b pos active k => read b pos active !! k;
  ImageBlock_clear := clear
|}.
End Spectral.
End Core.

(** ** Concrete blocks

    The variant of these examples takes a spectrum to be its channel
    values. *)
Module Demo.
Local Open Scope float_scope.

Definition api : ImageBlockAPI :=
  Core.api unit (list Float) (fun _ s => s).

Definition origin : Point2u := mkPoint2u 0 0.

Definition flags_off : CtorFlags := mkFlags false false false false false.
Definition flags_normalize : CtorFlags := mkFlags false true false false false.

(** A 4 x 4 block of four channels, without filter and border, as
    [Core.new origin (4, 4) 4 None flags_off] builds it. *)
Definition block4 : Core.Block :=
  Core.mkBlock origin (mkPoint2u 4 4) 0 4 None flags_off
    (replicate 64 0) (replicate 16 0).

(** A single normalizing pixel of two channels that holds values but has
    accumulated no weight, as [Core.from_tensor] adopts it. *)
Definition pixel_tensor : Core.Tensor := Core.mkTensor [1; 1; 2]%nat [5; 7].
Definition unweighted : Core.Block :=
  Core.mkBlock origin (mkPoint2u 1 1) 0 2 None flags_normalize [5; 7] [0].

Definition centre : Point2f := mkPoint2f 2 2.
Definition corner : Point2f := mkPoint2f 0.5 0.5.
Definition far_away : Point2f := mkPoint2f 100 100.
End Demo.

(** * Properties of the binding

    These hold for every implementation of the [ImageBlock] members. *)
Section BindingFacts.
Context {API : ImageBlockAPI}.
Implicit Types (ib : ImageBlock) (pos : Point2f) (values : list Float).
Implicit Types (active : option Mask).

(** The length test of the raw [put] comes first: once it fails, nothing
    else of the call is evaluated. *)
Lemma put_length_guard ib pos values active :
  length values <> ImageBlock_channel_count ib ->
  Py.put ib pos values active = (Throw "Incompatible channel count!", ib).
Proof.
  intros Hne. unfold Py.put.
  by rewrite bool_decide_true.
Qed.

Lemma put_length_ok ib pos values active :
  length values = ImageBlock_channel_count ib ->
  Py.put ib pos values active =
    (Ok tt, ImageBlock_put ib pos values (Py.kwarg true active)).
Proof.
  intros Heq. unfold Py.put.
  rewrite bool_decide_false; [done | by intros []].
Qed.

(** C1: a raw [put] whose [values] differ in length from [channel_count]
    fails with the channel-mismatch error, and the block, hence its storage
    tensor, is the one from before the call. *)
Theorem put_channel_mismatch ib pos values active :
  length values <> ImageBlock_channel_count ib ->
  (Py.put ib pos values active).1 = Throw "Incompatible channel count!" /\
  (Py.put ib pos values active).2 = ib /\
  ImageBlock_tensor (Py.put ib pos values active).2 = ImageBlock_tensor ib.
Proof.
  intros Hne. by rewrite put_length_guard.
Qed.

(** C9: the channel-mismatch error of the raw [put] does not depend on the
    mask; in particular it is raised when [active] is false. *)
Theorem put_channel_mismatch_any_mask ib pos values :
  length values <> ImageBlock_channel_count ib ->
  (Py.put ib pos values (Some false)).1 = Throw "Incompatible channel count!" /\
  forall active,
    Py.put ib pos values active = Py.put ib pos values (Some false).
Proof.
  intros Hne. split.
  - by rewrite put_length_guard.
  - intros active. by rewrite !put_length_guard.
Qed.

(** C7: [read] returns exactly [channel_count] values, whatever the
    position and the mask. *)
Theorem read_length ib pos active :
  length (Py.read ib pos active) = ImageBlock_channel_count ib.
Proof.
  unfold Py.read. by rewrite length_imap, length_replicate.
Qed.

(** C10: leaving out [alpha], [weight] or [active] in the spectral [put],
    or [active] in the raw [put] and in [read], is the same as passing 1,
    1 and true. *)
Theorem keyword_defaults ib pos values
    (wavelengths : Wavelength) (value : Spectrum) :
  (forall weight active,
     Py.put_spectral ib pos wavelengths value None weight active =
     Py.put_spectral ib pos wavelengths value (Some 1%float) weight active) /\
  (forall alpha active,
     Py.put_spectral ib pos wavelengths value alpha None active =
     Py.put_spectral ib pos wavelengths value alpha (Some 1%float) active) /\
  (forall alpha weight,
     Py.put_spectral ib pos wavelengths value alpha weight None =
     Py.put_spectral ib pos wavelengths value alpha weight (Some true)) /\
  Py.put ib pos values None = Py.put ib pos values (Some true) /\
  Py.read ib pos None = Py.read ib pos (Some true).
Proof.
  repeat split; intros; reflexivity.
Qed.

End BindingFacts.

(** ** Defaults of the constructor flags *)

Lemma wide_parallel_not_scalar F :
  wide_parallel_backend F <-> is_scalar_v F = false.
Proof. unfold wide_parallel_backend. destruct F; simpl; split; congruence. Qed.

Lemma sequential_is_scalar F :
  sequential_backend F <-> is_scalar_v F = true.
Proof. unfold sequential_backend. destruct F; simpl; split; congruence. Qed.

(** C2, as stated, fails: a CUDA variant runs on a wide parallel backend,
    yet [coalesce] defaults to false there. *)
Lemma coalesce_default_cuda :
  ~ (coalesce (default_flags CUDAArray) = true <->
     wide_parallel_backend CUDAArray).
Proof.
  intros [_ H]. discriminate H. intros E. discriminate E.
Qed.

(** C2, amended: in both constructors [border], [warn_negative] and
    [warn_invalid] default to true exactly on the scalar backend,
    [coalesce] defaults to true exactly when [Float] is an LLVM array, and
    [normalize] defaults to false on every backend. *)
Theorem flag_defaults F :
  let fl := default_flags F in
  default_tensor_flags F = fl /\
  (border fl = true <-> sequential_backend F) /\
  (warn_negative fl = true <-> sequential_backend F) /\
  (warn_invalid fl = true <-> sequential_backend F) /\
  (coalesce fl = true <-> F = LLVMArray) /\
  normalize fl = false.
Proof.
  unfold sequential_backend.
  destruct F; simpl; repeat split; intros; congruence.
Qed.

(** * Properties of the accumulation buffer *)
Section CoreFacts.
Implicit Types (b acc : Core.Block) (pos : Point2f) (values : list Float).
Implicit Types (w : Float) (active : Mask).

Lemma new_well_formed off size channels rf fl b :
  Core.new off size channels rf fl = Ok b -> Core.well_formed b.
Proof.
  unfold Core.new. repeat case_bool_decide; try discriminate.
  intros [= <-]. unfold Core.well_formed, Core.rows, Core.cols; simpl.
  by rewrite !length_replicate.
Qed.

Lemma from_tensor_well_formed off t rf fl b :
  Core.from_tensor off t rf fl = Ok b -> Core.well_formed b.
Proof.
  unfold Core.from_tensor.
  destruct (Core.shape t) as [|h [|w0 [|n [|? ?]]]]; try discriminate.
  repeat case_bool_decide; try discriminate.
  intros [= <-].
  unfold Core.well_formed, Core.rows, Core.cols, Core.height, Core.width; simpl.
  rewrite length_replicate. split; [|f_equal]; lia.
Qed.

Lemma accumulate_well_formed b row col values w :
  Core.well_formed b -> Core.well_formed (Core.accumulate b row col values w).
Proof.
  unfold Core.well_formed, Core.accumulate, Core.rows, Core.cols; simpl.
  intros [Hs Hw]. rewrite length_imap.
  split; [done|]. destruct (normalize (Core.flags b)); [|done].
  by rewrite length_alter.
Qed.

Lemma clear_well_formed b :
  Core.well_formed b -> Core.well_formed (Core.clear b).
Proof.
  unfold Core.well_formed, Core.clear, Core.rows, Core.cols; simpl.
  by rewrite !length_replicate.
Qed.

(** [accumulate] leaves the geometry of the block alone. *)
Lemma accumulate_geometry b row col values w :
  let b' := Core.accumulate b row col values w in
  Core.cols b' = Core.cols b /\ Core.rows b' = Core.rows b /\
  Core.channel_count b' = Core.channel_count b /\
  Core.rfilter b' = Core.rfilter b /\ Core.flags b' = Core.flags b.
Proof. done. Qed.

(** Distinct pixels of the extent have distinct row-major indices. *)
Lemma pixel_index_inj b row col row' col' :
  (col < Core.cols b)%nat -> (col' < Core.cols b)%nat ->
  Core.pixel_index b row col = Core.pixel_index b row' col' ->
  row = row' /\ col = col'.
Proof.
  unfold Core.pixel_index. intros Hc Hc' Heq.
  assert (row = row') by nia. subst. split; [done | lia].
Qed.

(** The channel slices of two distinct pixels do not overlap. *)
Lemma slice_disjoint (n p p' i : nat) :
  p' <> p -> (i < n)%nat -> ~ (p * n <= p' * n + i < p * n + n)%nat.
Proof. intros Hne Hi. nia. Qed.

(** Frame of [accumulate]: the cell of every other pixel is unchanged. *)
Lemma cell_accumulate_ne b row col values w p' :
  p' <> Core.pixel_index b row col ->
  Core.cell (Core.accumulate b row col values w) p' = Core.cell b p'.
Proof.
  intros Hne. unfold Core.cell, Core.accumulate; simpl.
  apply list_eq; intros i. rewrite !lookup_take.
  destruct (decide (i < Core.channel_count b)%nat) as [Hi|]; [|done].
  rewrite !lookup_drop, list_lookup_imap.
  rewrite bool_decide_false by by apply slice_disjoint.
  by destruct (_ !! _).
Qed.

(** Effect of [accumulate] on its own pixel: each channel grows by the
    weighted value. *)
Lemma cell_accumulate_eq b row col values w :
  length values = Core.channel_count b ->
  let p := Core.pixel_index b row col in
  Core.cell (Core.accumulate b row col values w) p =
  zip_with (fun x v => (x + v * w)%float) (Core.cell b p) values.
Proof.
  intros Hlen p. unfold Core.cell, Core.accumulate; simpl. fold p.
  apply list_eq; intros i. rewrite lookup_zip_with, !lookup_take.
  destruct (decide (i < Core.channel_count b)%nat) as [Hi|]; [|done].
  rewrite !lookup_drop, list_lookup_imap.
  rewrite bool_decide_true by lia.
  replace (p * Core.channel_count b + i - p * Core.channel_count b)%nat
    with i by lia.
  destruct (lookup_lt_is_Some_2 values i) as [v Hv]; [lia|].
  rewrite Hv. by destruct (_ !! _).
Qed.

(** An entry that misses the extent is dropped. *)
Lemma foldl_splat_outside b values c0 r0 acc (l : list (Z * Z * Float)) :
  Forall (fun e : Z * Z * Float =>
            Core.in_extent b (c0 + e.1.1) (r0 + e.1.2) = false) l ->
  foldl (Core.splat b values c0 r0) acc l = acc.
Proof.
  intros Hl. revert acc.
  induction Hl as [|[[dx dy] w] l Hout _ IH]; intros acc; [done|].
  simpl in *. by rewrite Hout.
Qed.

Lemma put_inactive b pos values : Core.put b pos values false = b.
Proof. reflexivity. Qed.

(** [put] keeps the storage at the size the shape announces. *)
Lemma put_well_formed b pos values active :
  Core.well_formed b -> Core.well_formed (Core.put b pos values active).
Proof.
  intros Hwf. unfold Core.put.
  destruct (negb active); [done|].
  destruct (_ && _); [done|].
  destruct (Core.nearest_pixel b pos) as [[c0 r0]|]; [|done].
  assert (forall l acc, Core.well_formed acc ->
            Core.well_formed (foldl (Core.splat b values c0 r0) acc l)) as H.
  { induction l as [|[[dx dy] w] l IH]; intros acc Hacc; [done|].
    simpl. apply IH.
    destruct (Core.in_extent b (c0 + dx) (r0 + dy)); [|done].
    by apply accumulate_well_formed. }
  by apply H.
Qed.

Lemma put_outside b pos values active :
  Core.outside_extent b pos -> Core.put b pos values active = b.
Proof.
  unfold Core.outside_extent, Core.put. intros Hout.
  destruct active; [simpl|done].
  destruct (_ && _); [done|].
  destruct (Core.nearest_pixel b pos) as [[c0 r0]|]; [|done].
  by apply foldl_splat_outside.
Qed.

(** Without a filter an active, accepted sample is one [accumulate] at the
    nearest pixel with weight 1, or nothing when that pixel is outside. *)
Lemma put_no_filter b pos values c r :
  Core.rfilter b = None ->
  Core.nearest_pixel b pos = Some (c, r) ->
  (warn_invalid (Core.flags b) && negb (forallb is_finite values)) = false ->
  Core.put b pos values true =
    if Core.in_extent b c r
    then Core.accumulate b (Z.to_nat r) (Z.to_nat c) values 1%float
    else b.
Proof.
  intros Hrf Hpix Hval. unfold Core.put; simpl.
  rewrite Hval, Hpix, Hrf; simpl.
  by rewrite !Z.add_0_r.
Qed.

(** A normalized read of a pixel without accumulated weight is zero in
    every channel. *)
Lemma read_zero_weight b pos active c r w :
  normalize (Core.flags b) = true ->
  Core.nearest_pixel b pos = Some (c, r) ->
  Core.weight_sum b !! Core.pixel_index b (Z.to_nat r) (Z.to_nat c) = Some w ->
  PrimFloat.eqb w 0 = true ->
  Forall (fun v => v = 0%float) (Core.read b pos active).
Proof.
  intros Hnorm Hpix Hw Hzero. unfold Core.read.
  destruct active; simpl; [|by apply Forall_replicate].
  rewrite Hpix.
  destruct (Core.in_extent b c r); [|by apply Forall_replicate].
  rewrite Hnorm, Hw; simpl.
  apply Forall_fmap, Forall_true. intros v; simpl.
  unfold Core.normalized. by rewrite Hzero.
Qed.

(** A buffer of zeros overwritten with zeros is a buffer of zeros. *)
Lemma imap_store_zeros (n : nat) (out : list Float) :
  Forall (fun v => v = 0%float) out ->
  imap (fun k old => default old (out !! k)) (replicate n 0%float) =
  replicate n 0%float.
Proof.
  intros Hout. apply list_eq; intros i.
  rewrite list_lookup_imap.
  destruct (decide (i < n)%nat) as [Hi|Hi].
  - rewrite lookup_replicate_2 by done. simpl. f_equal.
    destruct (out !! i) as [v|] eqn:Hv; [simpl|done].
    by eapply (Forall_lookup_1 _ _ _ _ Hout) in Hv.
  - assert (replicate n 0%float !! i = None) as ->; [|done].
    apply lookup_replicate_None. lia.
Qed.

Lemma in_extent_bounds b c r :
  Core.in_extent b c r = true ->
  (Z.to_nat c < Core.cols b)%nat /\ (Z.to_nat r < Core.rows b)%nat /\
  Z.of_nat (Z.to_nat c) = c /\ Z.of_nat (Z.to_nat r) = r.
Proof.
  unfold Core.in_extent. intros H%bool_decide_eq_true. lia.
Qed.

(** Frame of [accumulate] on the weight accumulators. *)
Lemma weight_accumulate_ne b row col values w p' :
  p' <> Core.pixel_index b row col ->
  Core.weight_sum (Core.accumulate b row col values w) !! p' =
  Core.weight_sum b !! p'.
Proof.
  intros Hne. unfold Core.accumulate; simpl.
  destruct (normalize (Core.flags b)); [|done].
  by apply list_lookup_alter_ne.
Qed.

(** Without a filter, [put] touches no pixel but the nearest one. *)
Lemma put_no_filter_frame b pos values active row col :
  Core.rfilter b = None ->
  (col < Core.cols b)%nat ->
  Core.nearest_pixel b pos <> Some (Z.of_nat col, Z.of_nat row) ->
  let p' := Core.pixel_index b row col in
  Core.cell (Core.put b pos values active) p' = Core.cell b p' /\
  Core.weight_sum (Core.put b pos values active) !! p' =
    Core.weight_sum b !! p'.
Proof.
  intros Hrf Hcol Hne p'.
  destruct active; [|done].
  destruct (warn_invalid (Core.flags b) && negb (forallb is_finite values))
    eqn:Hval.
  { unfold Core.put; simpl. by rewrite Hval. }
  destruct (Core.nearest_pixel b pos) as [[c r]|] eqn:Hpix.
  2: { unfold Core.put; simpl. by rewrite Hval, Hpix. }
  rewrite (put_no_filter b pos values c r) by done.
  destruct (Core.in_extent b c r) eqn:Hin; [|done].
  apply in_extent_bounds in Hin as (Hc & _ & Hzc & Hzr).
  assert (p' <> Core.pixel_index b (Z.to_nat r) (Z.to_nat c)) as Hp.
  { intros Heq. apply pixel_index_inj in Heq as [-> ->]; [|done..].
    apply Hne. by rewrite Hzc, Hzr. }
  split; [by apply cell_accumulate_ne | by apply weight_accumulate_ne].
Qed.

Section BlockClaims.
(** The external spectral-response step is arbitrary. *)
Variables (W S : Type) (conv : W -> S -> list Float).
Abbreviation API := (Core.api W S conv).

(** C3: on a 4 x 4 block of five channels at offset (0,0), without filter
    and border, [put] of five ones at (2.0, 2.0) is read back as five
    ones, and after [clear] the same read gives five zeros; this on every
    variant and for every choice of the remaining flags. *)
Theorem put_read_clear_example (F : FloatType)
    (normalize coalesce warn_negative warn_invalid : option bool) :
  let ones := replicate 5 1%float in
  exists b0 b1 : Core.Block,
    @Py.init API F Demo.origin (mkPoint2u 4 4) 5 None (Some false)
      normalize coalesce warn_negative warn_invalid = Ok b0 /\
    @Py.put API b0 Demo.centre ones (Some true) = (Ok tt, b1) /\
    @Py.read API b1 Demo.centre (Some true) = ones /\
    @Py.read API (@Py.clear API b1) Demo.centre (Some true) =
      replicate 5 0%float.
Proof.
  destruct F, normalize as [[]|], coalesce as [[]|],
    warn_negative as [[]|], warn_invalid as [[]|];
    (eexists _, _; split; [vm_compute; reflexivity|];
     split; [vm_compute; reflexivity|]; split; vm_compute; reflexivity).
Qed.

(** C4, as stated, fails: a raw [put] far outside the extent still raises
    the channel-mismatch error when given three values for four channels. *)
Lemma put_outside_mismatch_raises :
  Core.outside_extent Demo.block4 Demo.far_away /\
  (@Py.put Demo.api Demo.block4 Demo.far_away [1; 1; 1]%float (Some true)).1
  = Throw "Incompatible channel count!".
Proof.
  split; [|reflexivity].
  vm_compute. by repeat constructor.
Qed.

(** C4, amended: a [put] whose position maps entirely outside the
    border-inclusive extent never changes the block; it raises no error in
    the spectral overload, and none in the raw overload when [values] has
    [channel_count] entries. *)
Theorem put_outside_is_noop (b : Core.Block) (pos : Point2f) :
  Core.outside_extent b pos ->
  (forall values (active : option Mask),
     (@Py.put API b pos values active).2 = b /\
     (length values = Core.channel_count b ->
      @Py.put API b pos values active = (Ok tt, b))) /\
  (forall wavelengths value alpha weight (active : option Mask),
     @Py.put_spectral API b pos wavelengths value alpha weight active = b).
Proof.
  intros Hout. split.
  - intros values active. split.
    + unfold Py.put. case_bool_decide; simpl; [done|].
      by apply put_outside.
    + intros Hlen. rewrite (put_length_ok (API := API)) by done.
      f_equal. by apply put_outside.
  - intros. by apply put_outside.
Qed.

(** C5: a [put] with a false mask, in either overload, leaves the block
    and so its storage tensor as they were, whatever the position and the
    values. *)
Theorem put_inactive_is_noop (b : Core.Block) (pos : Point2f) :
  (forall values,
     (@Py.put API b pos values (Some false)).2 = b /\
     Core.tensor (@Py.put API b pos values (Some false)).2 = Core.tensor b) /\
  (forall wavelengths value alpha weight,
     @Py.put_spectral API b pos wavelengths value alpha weight (Some false)
     = b).
Proof.
  split.
  - intros values. unfold Py.put. by case_bool_decide.
  - intros. reflexivity.
Qed.

(** C6: with normalization enabled, reading a pixel whose weight
    accumulator is zero gives zero in every channel. *)
Theorem read_normalized_guard (b : Core.Block) (pos : Point2f)
    (active : option Mask) (c r : Z) (w : Float) :
  normalize (Core.flags b) = true ->
  Core.nearest_pixel b pos = Some (c, r) ->
  Core.weight_sum b !! Core.pixel_index b (Z.to_nat r) (Z.to_nat c) = Some w ->
  PrimFloat.eqb w 0 = true ->
  @Py.read API b pos active = replicate (Core.channel_count b) 0%float /\
  Forall (fun v => is_nan v = false /\ is_infinity v = false)
         (@Py.read API b pos active).
Proof.
  intros Hnorm Hpix Hw Hzero.
  assert (@Py.read API b pos active = replicate (Core.channel_count b) 0%float)
    as ->.
  { unfold Py.read. apply imap_store_zeros. by eapply read_zero_weight. }
  split; [done|]. by apply Forall_replicate.
Qed.

(** C8: both constructors take [nullptr] for [rfilter] when the caller
    names no filter; on a block without filter the footprint of a sample
    is its nearest pixel with weight 1, [put] adds the values, times 1, to
    that pixel, and every other pixel keeps its channels and its weight. *)
Theorem no_filter_single_pixel (F : FloatType) (b : Core.Block)
    (pos : Point2f) (values : list Float) :
  Core.rfilter b = None ->
  (forall off size channels t fl1 fl2 fl3 fl4 fl5,
     @Py.init API F off size channels None fl1 fl2 fl3 fl4 fl5 =
       Core.new off size channels None (Py.init_flags F fl1 fl2 fl3 fl4 fl5) /\
     @Py.init_tensor API F off t None fl1 fl2 fl3 fl4 fl5 =
       Core.from_tensor off t None
         (Py.init_tensor_flags F fl1 fl2 fl3 fl4 fl5)) /\
  Core.footprint (Core.rfilter b) pos = [(0%Z, 0%Z, 1%float)] /\
  (forall (active : Mask) (row col : nat),
     (col < Core.cols b)%nat ->
     Core.nearest_pixel b pos <> Some (Z.of_nat col, Z.of_nat row) ->
     let p' := Core.pixel_index b row col in
     Core.cell (Core.put b pos values active) p' = Core.cell b p' /\
     Core.weight_sum (Core.put b pos values active) !! p' =
       Core.weight_sum b !! p') /\
  (forall c r,
     Core.nearest_pixel b pos = Some (c, r) ->
     Core.in_extent b c r = true ->
     length values = Core.channel_count b ->
     (warn_invalid (Core.flags b) && negb (forallb is_finite values)) = false ->
     let p := Core.pixel_index b (Z.to_nat r) (Z.to_nat c) in
     Core.cell (Core.put b pos values true) p =
       zip_with (fun x v => (x + v * 1)%float) (Core.cell b p) values).
Proof.
  intros Hrf. split; [done|]. split; [by rewrite Hrf|]. split.
  - intros active row col Hcol Hne. by apply put_no_filter_frame.
  - intros c r Hpix Hin Hlen Hval p.
    rewrite (put_no_filter b pos values c r), Hin by done.
    by apply cell_accumulate_eq.
Qed.

End BlockClaims.

End CoreFacts.

(** * Instances at the demonstration blocks *)

(** The demonstration blocks are what the constructors build. *)
Lemma block4_constructed :
  @Py.init Demo.api ScalarFloat Demo.origin (mkPoint2u 4 4) 4 None
    (Some false) None None (Some false) (Some false) = Ok Demo.block4.
Proof. reflexivity. Qed.

Lemma unweighted_constructed :
  @Py.init_tensor Demo.api LLVMArray Demo.origin Demo.pixel_tensor None
    None (Some true) (Some false) None None = Ok Demo.unweighted.
Proof. reflexivity. Qed.

(** What the guard of [normalized] avoids. *)
Lemma unguarded_division : (5 / 0)%float = infinity /\ is_nan (0 / 0) = true.
Proof. split; reflexivity. Qed.

Lemma put_channel_mismatch_witness :
  length [1; 1; 1]%float <> Core.channel_count Demo.block4 /\
  (@Py.put Demo.api Demo.block4 Demo.centre [1; 1; 1]%float (Some true)).1
    = Throw "Incompatible channel count!" /\
  (@Py.put Demo.api Demo.block4 Demo.centre [1; 1; 1]%float (Some true)).2
    = Demo.block4 /\
  Core.tensor
    (@Py.put Demo.api Demo.block4 Demo.centre [1; 1; 1]%float (Some true)).2
    = Core.tensor Demo.block4.
Proof.
  split; [simpl; lia|].
  apply (@put_channel_mismatch Demo.api Demo.block4 Demo.centre
           [1; 1; 1]%float (Some true)).
  simpl; lia.
Defined.

Lemma put_channel_mismatch_any_mask_witness :
  length [1; 1; 1]%float <> Core.channel_count Demo.unweighted /\
  (@Py.put Demo.api Demo.unweighted Demo.corner [1; 1; 1]%float
     (Some false)).1 = Throw "Incompatible channel count!" /\
  forall active,
    @Py.put Demo.api Demo.unweighted Demo.corner [1; 1; 1]%float active =
    @Py.put Demo.api Demo.unweighted Demo.corner [1; 1; 1]%float (Some false).
Proof.
  split; [simpl; lia|].
  apply (@put_channel_mismatch_any_mask Demo.api Demo.unweighted Demo.corner
           [1; 1; 1]%float).
  simpl; lia.
Defined.

Lemma put_outside_is_noop_witness :
  Core.outside_extent Demo.block4 Demo.far_away /\
  @Py.put Demo.api Demo.block4 Demo.far_away [1; 1; 1; 1]%float (Some true)
    = (Ok tt, Demo.block4).
Proof.
  assert (Core.outside_extent Demo.block4 Demo.far_away) as Hout.
  { vm_compute. repeat constructor. }
  split; [exact Hout|].
  apply (put_outside_is_noop unit (list Float) (fun _ s => s)
           Demo.block4 Demo.far_away Hout).
  reflexivity.
Defined.

Lemma read_normalized_guard_witness :
  normalize (Core.flags Demo.unweighted) = true /\
  Core.cell Demo.unweighted 0 = [5; 7]%float /\
  @Py.read Demo.api Demo.unweighted Demo.corner (Some true)
    = [0; 0]%float.
Proof.
  split; [reflexivity|]. split; [reflexivity|].
  apply (read_normalized_guard unit (list Float) (fun _ s => s)
           Demo.unweighted Demo.corner (Some true) 0 0 0%float);
    reflexivity.
Defined.

Lemma no_filter_single_pixel_witness :
  Core.rfilter Demo.block4 = None /\
  Core.footprint (Core.rfilter Demo.block4) Demo.centre
    = [(0%Z, 0%Z, 1%float)] /\
  Core.cell (Core.put Demo.block4 Demo.centre [1; 2; 3; 4]%float true)
    (Core.pixel_index Demo.block4 2 2) = [1; 2; 3; 4]%float /\
  Core.cell (Core.put Demo.block4 Demo.centre [1; 2; 3; 4]%float true)
    (Core.pixel_index Demo.block4 2 3) = [0; 0; 0; 0]%float.
Proof.
  split; [reflexivity|].
  destruct (no_filter_single_pixel unit (list Float) (fun _ s => s)
              ScalarFloat Demo.block4 Demo.centre [1; 2; 3; 4]%float eq_refl)
    as (_ & Hfoot & Hframe & Hcell).
  split; [exact Hfoot|]. split.
  - apply (Hcell 2%Z 2%Z); reflexivity.
  - destruct (Hframe true 2%nat 3%nat) as [-> _]; [vm_compute; lia|..|reflexivity].
    vm_compute. congruence.
Defined.

(** * Further properties of the binding

    As before, for every implementation of the [ImageBlock] members. *)
Section BindingExtras.
Context {API : ImageBlockAPI}.
Implicit Types (ib : ImageBlock) (pos : Point2f) (values : list Float).
Implicit Types (active : option Mask).



End BindingExtras.

